(** * The Bedrock text-generation handler: request/response translation
      and error mapping

    A shallow embedding of [src/lambda_function.py].  The handler receives an
    event (a Python object), extracts four optional fields, forwards them to
    the inference provider, and wraps the provider's answer, or whatever
    exception was raised on the way, in an HTTP-shaped result.

    Python objects are the JSON fragment of Python's data model; dictionaries
    are association lists in insertion order (the order [json.dumps] prints
    them in).  A Python [str] is a [string], one [ascii] per character.
    The libraries the handler calls ([json], [os.environ], the provider
    client, [repr]) are the fields of a [platform]; every theorem holds for
    an arbitrary platform. *)

From Stdlib Require Import ZArith String PrimFloat.
From stdpp Require Import base strings pretty gmap list.

Set Warnings "-register-all,-inexact-float".

Local Open Scope string_scope.
Local Open Scope Z_scope.

(** ** Python values *)

Inductive pyval : Type :=
| PNone
| PBool (b : bool)
| PInt (n : Z)
| PFloat (x : float)
| PStr (s : string)
| PList (items : list pyval)
| PDict (items : list (string * pyval)).

(** [type(v).__name__], as it appears in the interpreter's error messages. *)
Definition type_name (v : pyval) : string :=
  match v with
  | PNone => "NoneType"
  | PBool _ => "bool"
  | PInt _ => "int"
  | PFloat _ => "float"
  | PStr _ => "str"
  | PList _ => "list"
  | PDict _ => "dict"
  end.

Definition is_str (v : pyval) : bool :=
  match v with PStr _ => true | _ => false end.

Definition is_dict (v : pyval) : bool :=
  match v with PDict _ => true | _ => false end.

(** Values that support [v[:n]] without raising. *)
Definition sliceable (v : pyval) : bool :=
  match v with PStr _ | PList _ => true | _ => false end.

(** ** Dictionaries *)

Fixpoint dict_lookup (items : list (string * pyval)) (key : string)
  : option pyval :=
  match items with
  | [] => None
  | (k, v) :: rest => if decide (k = key) then Some v else dict_lookup rest key
  end.

(** [d.get(key, dflt)] on a dictionary. *)
Definition dict_get (items : list (string * pyval)) (key : string)
  (dflt : pyval) : pyval :=
  default dflt (dict_lookup items key).

(** ** Exceptions

    Every constructor carries [str(e)].  [ClientError] also carries the
    code and message of [e.response['Error']], which botocore fills in for
    every service error.  [Exception] stands for any other subclass of
    Python's [Exception]. *)

Record error_response : Type := ErrorResponse {
  Code : string;
  Message : string
}.

Inductive exn : Type :=
| ClientError (response : error_response) (text : string)
| JSONDecodeError (text : string)
| AttributeError (text : string)
| TypeError (text : string)
| KeyError (text : string)
| Exception (text : string).

Definition str_exn (e : exn) : string :=
  match e with
  | ClientError _ text
  | JSONDecodeError text
  | AttributeError text
  | TypeError text
  | KeyError text
  | Exception text => text
  end.

Definition is_client_error (e : exn) : bool :=
  match e with ClientError _ _ => true | _ => false end.

Definition is_json_decode_error (e : exn) : bool :=
  match e with JSONDecodeError _ => true | _ => false end.

(** ** The outside world *)

(** Keyword arguments of [bedrock_runtime.invoke_model]. *)
Record invoke_model_args : Type := InvokeModelArgs {
  modelId : string;
  body : string;
  contentType : string;
  accept : string
}.

Inductive log_level : Type := INFO | ERROR.

(** What an invocation leaves behind: the provider calls it made and the
    records it logged, oldest first. *)
Record world : Type := World {
  calls : list invoke_model_args;
  records : list (log_level * string)
}.

Record platform : Type := Platform {
  (** [os.environ] *)
  environ : gmap string string;
  (** [json.loads]: the decoded value, or the text of the
      [json.JSONDecodeError] *)
  json_loads : string -> string + pyval;
  (** [json.dumps]; it does not raise on this fragment of Python's values *)
  json_dumps : pyval -> string;
  (** [repr] of a value that is not a [str] *)
  repr : pyval -> string;
  (** [bedrock_runtime.invoke_model(...)['body'].read()] on the module's
      client: the text of the response body, or the exception raised *)
  invoke_model : invoke_model_args -> exn + string
}.

(** The result handed back to the hosting runtime; [result_body] is its
    key [body]. *)
Record result : Type := Result {
  statusCode : Z;
  headers : gmap string string;
  result_body : string
}.

(** ** Computations that log, call the provider, and may raise *)

Definition M (A : Type) : Type := world -> (exn + A) * world.

Definition ret {A} (a : A) : M A := fun w => (inr a, w).

Definition raise {A} (e : exn) : M A := fun w => (inl e, w).

Definition bind {A B} (m : M A) (k : A -> M B) : M B :=
  fun w =>
    match m w with
    | (inr a, w') => k a w'
    | (inl e, w') => (inl e, w')
    end.

#[global] Instance M_ret : MRet M := @ret.
#[global] Instance M_bind : MBind M := fun A B k m => bind m k.

Definition log (level : log_level) (msg : string) (w : world) : world :=
  {| calls := calls w; records := records w ++ [(level, msg)] |}.

Definition record_call (args : invoke_model_args) (w : world) : world :=
  {| calls := calls w ++ [args]; records := records w |}.

Definition logger_info (msg : string) : M unit :=
  fun w => (inr tt, log INFO msg w).

Definition logger_error (msg : string) : M unit :=
  fun w => (inr tt, log ERROR msg w).

(** [obj.get(key, dflt)]: only a dictionary has the method. *)
Definition py_get (obj : pyval) (key : string) (dflt : pyval) : M pyval :=
  match obj with
  | PDict items => ret (dict_get items key dflt)
  | _ => raise (AttributeError
                  ("'" +:+ type_name obj +:+ "' object has no attribute 'get'"))
  end.

(** [obj[:n]].  A dictionary looks the slice up as a key and misses
    (Python 3.12 and later, where slices are hashable). *)
Definition py_slice_to (obj : pyval) (n : nat) : M pyval :=
  match obj with
  | PStr s => ret (PStr (substring 0 n s))
  | PList items => ret (PList (take n items))
  | PDict _ => raise (KeyError ("slice(None, " +:+ pretty n +:+ ", None)"))
  | _ => raise (TypeError
                  ("'" +:+ type_name obj +:+ "' object is not subscriptable"))
  end.

Section Handler.

Variable P : platform.

(** A replacement field [{v}] of an f-string. *)
Definition py_format (v : pyval) : string :=
  match v with
  | PStr s => s
  | _ => repr P v
  end.

Definition py_json_loads (s : string) : M pyval :=
  match json_loads P s with
  | inr v => ret v
  | inl text => raise (JSONDecodeError text)
  end.

(** [os.environ.get(name, dflt)] *)
Definition os_environ_get (name dflt : string) : string :=
  default dflt (environ P !! name).

Definition bedrock_invoke_model (args : invoke_model_args) : M string :=
  fun w => (invoke_model P args, record_call args w).

(** *** The body of the [try] block *)

Definition lambda_body (event : pyval) : M result :=
  event ← match event with
          | PStr s => py_json_loads s
          | _ => ret event
          end;
  prompt ← py_get event "prompt" (PStr "Hello, how are you?");
  max_tokens ← py_get event "max_tokens" (PInt 512);
  temperature ← py_get event "temperature" (PFloat 0.7);
  top_p ← py_get event "top_p" (PFloat 0.9);
  shown ← py_slice_to prompt 100;
  logger_info ("Processing request with prompt: " +:+ py_format shown +:+ "...");;
  let request_body :=
    PDict [("prompt", prompt);
           ("max_gen_len", max_tokens);
           ("temperature", temperature);
           ("top_p", top_p)] in
  let model_id := os_environ_get "MODEL_ID" "meta.llama3-8b-instruct-v1:0" in
  response ← bedrock_invoke_model
                {| modelId := model_id;
                   body := json_dumps P request_body;
                   contentType := "application/json";
                   accept := "application/json" |};
  response_body ← py_json_loads response;
  generated_text ← py_get response_body "generation" (PStr "");
  logger_info "Successfully generated response";;
  ret {| statusCode := 200;
         headers := {[ "Content-Type" := "application/json";
                       "Access-Control-Allow-Origin" := "*";
                       "Access-Control-Allow-Headers" := "Content-Type";
                       "Access-Control-Allow-Methods" := "OPTIONS,POST,GET" ]};
         result_body :=
           json_dumps P
             (PDict [("success", PBool true);
                     ("generated_text", generated_text);
                     ("model_id", PStr model_id);
                     ("input_prompt", prompt);
                     ("parameters",
                      PDict [("max_tokens", max_tokens);
                             ("temperature", temperature);
                             ("top_p", top_p)])]) |}.

(** *** The three [except] clauses *)

Definition except_ClientError (response : error_response) : M result :=
  let error_code := Code response in
  let error_message := Message response in
  logger_error ("AWS Client Error: " +:+ error_code +:+ " - " +:+ error_message);;
  ret {| statusCode := 400;
         headers := {[ "Content-Type" := "application/json";
                       "Access-Control-Allow-Origin" := "*" ]};
         result_body :=
           json_dumps P
             (PDict [("success", PBool false);
                     ("error", PStr ("AWS Error: " +:+ error_code));
                     ("message", PStr error_message)]) |}.

Definition except_JSONDecodeError (e : exn) : M result :=
  logger_error ("JSON parsing error: " +:+ str_exn e);;
  ret {| statusCode := 400;
         headers := {[ "Content-Type" := "application/json";
                       "Access-Control-Allow-Origin" := "*" ]};
         result_body :=
           json_dumps P
             (PDict [("success", PBool false);
                     ("error", PStr "Invalid JSON format");
                     ("message", PStr (str_exn e))]) |}.

Definition except_Exception (e : exn) : M result :=
  logger_error ("Unexpected error: " +:+ str_exn e);;
  ret {| statusCode := 500;
         headers := {[ "Content-Type" := "application/json";
                       "Access-Control-Allow-Origin" := "*" ]};
         result_body :=
           json_dumps P
             (PDict [("success", PBool false);
                     ("error", PStr "Internal server error");
                     ("message", PStr (str_exn e))]) |}.

(** *** The handler: [try] the body, dispatch on the exception's class,
    first matching clause wins *)

Definition lambda_handler (event : pyval) : M result :=
  fun w =>
    match lambda_body event w with
    | (inr r, w') => (inr r, w')
    | (inl e, w') =>
        match e with
        | ClientError response _ => except_ClientError response w'
        | JSONDecodeError _ => except_JSONDecodeError e w'
        | _ => except_Exception e w'
        end
    end.

End Handler.

(** ** Vocabulary of the statements *)

(** The event is a dictionary, or text that decodes to one. *)
Inductive decodes_to (P : platform) : pyval -> list (string * pyval) -> Prop :=
| decodes_structured d :
    decodes_to P (PDict d) d
| decodes_textual s d :
    json_loads P s = inr (PDict d) ->
    decodes_to P (PStr s) d.

(** The handler, run on [event] from [w], called the provider with [req]. *)
Definition invoked (P : platform) (event : pyval) (w : world)
  (req : invoke_model_args) : Prop :=
  calls (lambda_handler P event w).2 = (calls w ++ [req])%list.

(** ** Test doubles *)

(** A platform to run the handler on: an encoder for the JSON fragment,
    a decoder that knows a few texts, and a provider chosen by the test. *)

Definition dquote : string := String (Ascii.ascii_of_nat 34) EmptyString.

Definition quoted (s : string) : string := dquote +:+ s +:+ dquote.

Fixpoint join (sep : string) (parts : list string) : string :=
  match parts with
  | [] => EmptyString
  | [s] => s
  | s :: rest => s +:+ sep +:+ join sep rest
  end.

(** Floats other than the handler's two literals print as [<float>]. *)
Fixpoint mock_json_dumps (v : pyval) : string :=
  match v with
  | PNone => "null"
  | PBool true => "true"
  | PBool false => "false"
  | PInt n => pretty n
  | PFloat x =>
      if PrimFloat.Leibniz.eqb x 0.7 then "0.7"
      else if PrimFloat.Leibniz.eqb x 0.9 then "0.9"
      else "<float>"
  | PStr s => quoted s
  | PList items => "[" +:+ join ", " (map mock_json_dumps items) +:+ "]"
  | PDict items =>
      "{" +:+ join ", "
                (map (fun kv => quoted kv.1 +:+ ": " +:+ mock_json_dumps kv.2)
                   items)
          +:+ "}"
  end.

(** The text [{"generation": "X"}]. *)
Definition generation_X : string :=
  "{" +:+ quoted "generation" +:+ ": " +:+ quoted "X" +:+ "}".

Definition mock_json_loads (s : string) : string + pyval :=
  if decide (s = "{}") then inr (PDict [])
  else if decide (s = "[]") then inr (PList [])
  else if decide (s = generation_X) then inr (PDict [("generation", PStr "X")])
  else inl "Expecting value: line 1 column 1 (char 0)".

Definition mock (env : gmap string string)
  (provider : invoke_model_args -> exn + string) : platform :=
  {| environ := env;
     json_loads := mock_json_loads;
     json_dumps := mock_json_dumps;
     repr := mock_json_dumps;
     invoke_model := provider |}.

(** Providers *)

Definition answers (raw : string) : invoke_model_args -> exn + string :=
  fun _ => inr raw.

Definition throttled : invoke_model_args -> exn + string :=
  fun _ =>
    inl (ClientError
           {| Code := "ThrottlingException"; Message := "Too many requests" |}
           ("An error occurred (ThrottlingException) when calling the "
            +:+ "InvokeModel operation: Too many requests")).

Definition unreachable : invoke_model_args -> exn + string :=
  fun _ => inl (Exception "Could not connect to the endpoint URL").

Definition fresh : world := {| calls := []; records := [] |}.

(** ** The local test entry point *)

(** [test_event] of [test_local]. *)
Definition test_event : pyval :=
  PDict [("prompt", PStr "Explain what AWS Bedrock is in simple terms.");
         ("max_tokens", PInt 200);
         ("temperature", PFloat 0.7);
         ("top_p", PFloat 0.9)].

(** [test_local]: run the handler on [test_event] (the handler never reads
    its context argument) and print the result.  [dumps_indent2] is
    [json.dumps(result, indent=2)]; the value returned is what [print]
    wrote. *)
Definition test_local (P : platform) (dumps_indent2 : result -> string)
  : M (list string) :=
  result ← lambda_handler P test_event;
  ret [dumps_indent2 result].

(** ** Log records *)



(** ** Requests and results on a given platform *)

Section Runs.

Variable P : platform.

Definition resolved_model_id : string :=
  default "meta.llama3-8b-instruct-v1:0" (environ P !! "MODEL_ID").

(** The request the body builds from the decoded event [d]. *)
Definition provider_request (d : list (string * pyval)) : invoke_model_args :=
  {| modelId := resolved_model_id;
     body := json_dumps P
               (PDict [("prompt", dict_get d "prompt" (PStr "Hello, how are you?"));
                       ("max_gen_len", dict_get d "max_tokens" (PInt 512));
                       ("temperature", dict_get d "temperature" (PFloat 0.7));
                       ("top_p", dict_get d "top_p" (PFloat 0.9))]);
     contentType := "application/json";
     accept := "application/json" |}.

Definition success_headers : gmap string string :=
  {[ "Content-Type" := "application/json";
     "Access-Control-Allow-Origin" := "*";
     "Access-Control-Allow-Headers" := "Content-Type";
     "Access-Control-Allow-Methods" := "OPTIONS,POST,GET" ]}.

Definition failure_headers : gmap string string :=
  {[ "Content-Type" := "application/json";
     "Access-Control-Allow-Origin" := "*" ]}.

Definition success_result (d : list (string * pyval)) (generated_text : pyval)
  : result :=
  {| statusCode := 200;
     headers := success_headers;
     result_body :=
       json_dumps P
         (PDict [("success", PBool true);
                 ("generated_text", generated_text);
                 ("model_id", PStr resolved_model_id);
                 ("input_prompt", dict_get d "prompt" (PStr "Hello, how are you?"));
                 ("parameters",
                  PDict [("max_tokens", dict_get d "max_tokens" (PInt 512));
                         ("temperature", dict_get d "temperature" (PFloat 0.7));
                         ("top_p", dict_get d "top_p" (PFloat 0.9))])]) |}.

Definition failure_result (status : Z) (error message : string) : result :=
  {| statusCode := status;
     headers := failure_headers;
     result_body :=
       json_dumps P
         (PDict [("success", PBool false);
                 ("error", PStr error);
                 ("message", PStr message)]) |}.

(** The world once the request for [d] has gone out. *)
Definition world_after_request (d : list (string * pyval)) (w : world) : world :=
  let prompt := dict_get d "prompt" (PStr "Hello, how are you?") in
  let shown := match prompt with
               | PStr s => PStr (substring 0 100 s)
               | PList items => PList (take 100 items)
               | _ => prompt
               end in
  record_call (provider_request d)
    (log INFO ("Processing request with prompt: " +:+ py_format P shown +:+ "...") w).

(** The body from the provider call on, as a function of the provider's
    answer. *)
Definition after_request (d : list (string * pyval)) (w : world)
  : (exn + result) * world :=
  let w1 := world_after_request d w in
  match invoke_model P (provider_request d) with
  | inl e => (inl e, w1)
  | inr raw =>
      match json_loads P raw with
      | inl text => (inl (JSONDecodeError text), w1)
      | inr (PDict r) =>
          (inr (success_result d (dict_get r "generation" (PStr ""))),
           log INFO "Successfully generated response" w1)
      | inr v =>
          (inl (AttributeError
                  ("'" +:+ type_name v +:+ "' object has no attribute 'get'")),
           w1)
      end
  end.

(** The result an [except] clause builds for [e]. *)
Definition failure_of (e : exn) : result :=
  match e with
  | ClientError response _ =>
      failure_result 400 ("AWS Error: " +:+ Code response) (Message response)
  | JSONDecodeError text =>
      failure_result 400 "Invalid JSON format" text
  | _ =>
      failure_result 500 "Internal server error" (str_exn e)
  end.

(** ** How an invocation runs *)

(** *** Running the body *)

Lemma lambda_body_decoded event d w :
  decodes_to P event d ->
  lambda_body P event w = lambda_body P (PDict d) w.
Proof.
  intros [d'|s d' Hs]; [reflexivity|].
  unfold lambda_body, mbind, M_bind, bind, py_json_loads.
  rewrite Hs. reflexivity.
Qed.

Lemma lambda_body_sliceable d w :
  sliceable (dict_get d "prompt" (PStr "Hello, how are you?")) = true ->
  lambda_body P (PDict d) w = after_request d w.
Proof.
  unfold lambda_body, after_request, world_after_request, provider_request,
    success_result, os_environ_get, resolved_model_id, mbind, M_bind, bind.
  cbn [py_get ret].
  generalize (dict_get d "prompt" (PStr "Hello, how are you?")).
  intros prompt Hs.
  destruct prompt; try discriminate Hs;
    cbn [py_slice_to ret logger_info bedrock_invoke_model].
  all: destruct (invoke_model P _) as [e|raw]; [reflexivity|].
  all: unfold py_json_loads; destruct (json_loads P raw) as [text|[]];
    reflexivity.
Qed.

Lemma lambda_body_unsliceable d w :
  sliceable (dict_get d "prompt" (PStr "Hello, how are you?")) = false ->
  exists e,
    lambda_body P (PDict d) w = (inl e, w) /\
    is_client_error e = false /\ is_json_decode_error e = false.
Proof.
  unfold lambda_body, mbind, M_bind, bind. cbn [py_get ret].
  generalize (dict_get d "prompt" (PStr "Hello, how are you?")).
  intros prompt Hs.
  destruct prompt; try discriminate Hs; cbn [py_slice_to raise];
    eexists; (split; [reflexivity|split; reflexivity]).
Qed.

Lemma lambda_body_undecodable s text w :
  json_loads P s = inl text ->
  lambda_body P (PStr s) w = (inl (JSONDecodeError text), w).
Proof.
  intros Hs. unfold lambda_body, mbind, M_bind, bind, py_json_loads.
  rewrite Hs. reflexivity.
Qed.

Lemma lambda_body_no_get event w :
  is_str event = false -> is_dict event = false ->
  lambda_body P event w =
    (inl (AttributeError
            ("'" +:+ type_name event +:+ "' object has no attribute 'get'")),
     w).
Proof. destruct event; intros; try discriminate; reflexivity. Qed.

Lemma lambda_body_decoded_no_get s v w :
  json_loads P s = inr v -> is_dict v = false ->
  lambda_body P (PStr s) w =
    (inl (AttributeError
            ("'" +:+ type_name v +:+ "' object has no attribute 'get'")),
     w).
Proof.
  intros Hs Hv. unfold lambda_body, mbind, M_bind, bind, py_json_loads.
  rewrite Hs. destruct v; try discriminate Hv; reflexivity.
Qed.

(** Either the body gets as far as the provider, or it raises with the
    world untouched. *)
Lemma lambda_body_cases event w :
  (exists d,
      decodes_to P event d /\
      sliceable (dict_get d "prompt" (PStr "Hello, how are you?")) = true /\
      lambda_body P event w = after_request d w)
  \/ (exists e, lambda_body P event w = (inl e, w)).
Proof.
  assert (Hdict : forall d, decodes_to P event d ->
    (exists d,
        decodes_to P event d /\
        sliceable (dict_get d "prompt" (PStr "Hello, how are you?")) = true /\
        lambda_body P event w = after_request d w)
    \/ (exists e, lambda_body P event w = (inl e, w))).
  { intros d Hd. rewrite (lambda_body_decoded _ _ w Hd).
    destruct (sliceable (dict_get d "prompt" (PStr "Hello, how are you?")))
      eqn:Hs.
    - left. exists d. auto using lambda_body_sliceable.
    - right. destruct (lambda_body_unsliceable d w Hs) as (e & He & _).
      eauto. }
  destruct event as [| | | |s| |d];
    try (right; eexists; apply lambda_body_no_get; reflexivity).
  - destruct (json_loads P s) as [text|v] eqn:Hs.
    + right. eexists. apply lambda_body_undecodable, Hs.
    + destruct (is_dict v) eqn:Hv.
      * destruct v; try discriminate Hv.
        apply (Hdict items). constructor. exact Hs.
      * right. eexists. apply (lambda_body_decoded_no_get _ _ _ Hs Hv).
  - apply (Hdict d). constructor.
Qed.

(** *** Running the handler *)

Lemma lambda_handler_returns event w r w' :
  lambda_body P event w = (inr r, w') ->
  lambda_handler P event w = (inr r, w').
Proof. intros H. unfold lambda_handler. rewrite H. reflexivity. Qed.

Lemma lambda_handler_catches event w e w' :
  lambda_body P event w = (inl e, w') ->
  (lambda_handler P event w).1 = inr (failure_of e) /\
  calls (lambda_handler P event w).2 = calls w'.
Proof.
  intros H. unfold lambda_handler. rewrite H.
  destruct e; split; reflexivity.
Qed.

Lemma after_request_calls d w :
  calls (after_request d w).2 = (calls w ++ [provider_request d])%list.
Proof.
  unfold after_request.
  destruct (invoke_model P _) as [e|raw]; [reflexivity|].
  destruct (json_loads P raw) as [text|[]]; reflexivity.
Qed.

Lemma lambda_handler_calls event w :
  calls (lambda_handler P event w).2 = calls (lambda_body P event w).2.
Proof.
  destruct (lambda_body P event w) as [[e|r] w'] eqn:Hb.
  - apply (lambda_handler_catches _ _ _ _ Hb).
  - rewrite (lambda_handler_returns _ _ _ _ Hb). reflexivity.
Qed.

Lemma invoked_intro event d w :
  decodes_to P event d ->
  sliceable (dict_get d "prompt" (PStr "Hello, how are you?")) = true ->
  invoked P event w (provider_request d).
Proof.
  intros Hd Hs. unfold invoked.
  rewrite lambda_handler_calls, (lambda_body_decoded _ _ w Hd),
    (lambda_body_sliceable _ w Hs).
  apply after_request_calls.
Qed.

Lemma invoked_inv event w req :
  invoked P event w req ->
  exists d,
    decodes_to P event d /\
    sliceable (dict_get d "prompt" (PStr "Hello, how are you?")) = true /\
    req = provider_request d /\
    lambda_body P event w = after_request d w.
Proof.
  unfold invoked. rewrite lambda_handler_calls.
  destruct (lambda_body_cases event w) as [(d & Hd & Hs & Hb)|(e & Hb)];
    rewrite Hb.
  - rewrite after_request_calls. intros Heq.
    apply app_inj_tail in Heq as [_ <-]. eauto.
  - cbn [snd]. intros Heq. apply (f_equal length) in Heq.
    rewrite length_app in Heq. cbn in Heq. lia.
Qed.


Lemma failure_of_status e :
  statusCode (failure_of e) = 400 \/ statusCode (failure_of e) = 500.
Proof. destruct e; cbn; auto. Qed.

Lemma failure_of_headers e : headers (failure_of e) = failure_headers.
Proof. destruct e; reflexivity. Qed.

(** Whatever the event, the handler returns, and what it returns is the
    success result or the result of one of the [except] clauses. *)
Lemma lambda_handler_cases event w :
  exists r,
    (lambda_handler P event w).1 = inr r /\
    ((exists d generated_text,
         decodes_to P event d /\ r = success_result d generated_text)
     \/ (exists e, r = failure_of e)).
Proof.
  destruct (lambda_body_cases event w) as [(d & Hd & Hs & Hb)|(e & Hb)].
  - unfold after_request in Hb.
    destruct (invoke_model P _) as [e|raw].
    { destruct (lambda_handler_catches _ _ _ _ Hb) as [-> _]. eauto. }
    destruct (json_loads P raw) as [text|v].
    { destruct (lambda_handler_catches _ _ _ _ Hb) as [-> _]. eauto. }
    destruct v;
      try (destruct (lambda_handler_catches _ _ _ _ Hb) as [-> _]; eauto).
    rewrite (lambda_handler_returns _ _ _ _ Hb). eauto 7.
  - destruct (lambda_handler_catches _ _ _ _ Hb) as [-> _]. eauto.
Qed.

(** ** The success path *)

(** C1: when the provider's answer decodes to an object whose field
    [generation] is [X], the handler returns status 200 and an envelope with
    [success] true, [generated_text] [X], the model identifier resolved from
    [MODEL_ID] (or the fixed fallback), the effective prompt and the
    effective [max_tokens], [temperature] and [top_p]. *)
Theorem generation_is_returned event w req raw r X :
  invoked P event w req ->
  invoke_model P req = inr raw ->
  json_loads P raw = inr (PDict r) ->
  dict_lookup r "generation" = Some X ->
  exists d,
    decodes_to P event d /\
    (lambda_handler P event w).1 =
      inr {| statusCode := 200;
             headers := {[ "Content-Type" := "application/json";
                           "Access-Control-Allow-Origin" := "*";
                           "Access-Control-Allow-Headers" := "Content-Type";
                           "Access-Control-Allow-Methods" := "OPTIONS,POST,GET" ]};
             result_body :=
               json_dumps P
                 (PDict
                    [("success", PBool true);
                     ("generated_text", X);
                     ("model_id",
                      PStr (default "meta.llama3-8b-instruct-v1:0"
                              (environ P !! "MODEL_ID")));
                     ("input_prompt",
                      dict_get d "prompt" (PStr "Hello, how are you?"));
                     ("parameters",
                      PDict [("max_tokens", dict_get d "max_tokens" (PInt 512));
                             ("temperature",
                              dict_get d "temperature" (PFloat 0.7));
                             ("top_p", dict_get d "top_p" (PFloat 0.9))])]) |}.
Proof.
  intros Hinv Hraw Hr HX.
  destruct (invoked_inv _ _ _ Hinv) as (d & Hd & _ & -> & Hb).
  exists d. split; [exact Hd|].
  unfold after_request in Hb. rewrite Hraw, Hr in Hb.
  rewrite (lambda_handler_returns _ _ _ _ Hb). cbn [fst].
  unfold success_result, dict_get at 1. rewrite HX. reflexivity.
Qed.

(** C4: when the provider's answer decodes to an object without a
    [generation] field, the handler still returns status 200, and
    [generated_text] is the empty string. *)
Theorem missing_generation_is_empty event w req raw r :
  invoked P event w req ->
  invoke_model P req = inr raw ->
  json_loads P raw = inr (PDict r) ->
  dict_lookup r "generation" = None ->
  exists d,
    decodes_to P event d /\
    (lambda_handler P event w).1 =
      inr {| statusCode := 200;
             headers := success_headers;
             result_body :=
               json_dumps P
                 (PDict
                    [("success", PBool true);
                     ("generated_text", PStr EmptyString);
                     ("model_id", PStr resolved_model_id);
                     ("input_prompt",
                      dict_get d "prompt" (PStr "Hello, how are you?"));
                     ("parameters",
                      PDict [("max_tokens", dict_get d "max_tokens" (PInt 512));
                             ("temperature",
                              dict_get d "temperature" (PFloat 0.7));
                             ("top_p", dict_get d "top_p" (PFloat 0.9))])]) |}.
Proof.
  intros Hinv Hraw Hr HX.
  destruct (invoked_inv _ _ _ Hinv) as (d & Hd & _ & -> & Hb).
  exists d. split; [exact Hd|].
  unfold after_request in Hb. rewrite Hraw, Hr in Hb.
  rewrite (lambda_handler_returns _ _ _ _ Hb). cbn [fst].
  unfold success_result, dict_get at 1. rewrite HX. reflexivity.
Qed.

(** ** The failure paths *)

(** C5: when the provider raises a client error with code [C] and message
    [M], the handler returns status 400 and an envelope with [success]
    false, [error] the text [AWS Error: ] followed by [C], and [message]
    [M]. *)
Theorem client_error_is_400 event w req C M text :
  invoked P event w req ->
  invoke_model P req = inl (ClientError {| Code := C; Message := M |} text) ->
  (lambda_handler P event w).1 =
    inr {| statusCode := 400;
           headers := {[ "Content-Type" := "application/json";
                         "Access-Control-Allow-Origin" := "*" ]};
           result_body :=
             json_dumps P
               (PDict [("success", PBool false);
                       ("error", PStr ("AWS Error: " +:+ C));
                       ("message", PStr M)]) |}.
Proof.
  intros Hinv Hraw.
  destruct (invoked_inv _ _ _ Hinv) as (d & _ & _ & -> & Hb).
  unfold after_request in Hb. rewrite Hraw in Hb.
  apply (lambda_handler_catches _ _ _ _ Hb).
Qed.



(** C10: an event that is neither a string nor a dictionary has no [get];
    the handler returns status 500 with [error] [Internal server error]
    through the catch-all clause, without calling the provider. *)
Theorem unstructured_event_is_500 event w :
  is_str event = false ->
  is_dict event = false ->
  (lambda_handler P event w).1 =
    inr {| statusCode := 500;
           headers := {[ "Content-Type" := "application/json";
                         "Access-Control-Allow-Origin" := "*" ]};
           result_body :=
             json_dumps P
               (PDict [("success", PBool false);
                       ("error", PStr "Internal server error");
                       ("message",
                        PStr ("'" +:+ type_name event
                              +:+ "' object has no attribute 'get'"))]) |}
  /\ calls (lambda_handler P event w).2 = calls w.
Proof.
  intros Hstr Hdict.
  apply (lambda_handler_catches _ _ _ _ (lambda_body_no_get _ w Hstr Hdict)).
Qed.

(** C7: an exception raised in the [try] block that is neither a client
    error nor a JSON decode error is not propagated: the handler returns
    status 500 and an envelope with [success] false, [error]
    [Internal server error], and [message] the exception's text.  Hence
    the handler returns a result on every event. *)
Theorem other_failures_are_500 event w :
  (forall e w',
      lambda_body P event w = (inl e, w') ->
      is_client_error e = false ->
      is_json_decode_error e = false ->
      (lambda_handler P event w).1 =
        inr {| statusCode := 500;
               headers := {[ "Content-Type" := "application/json";
                             "Access-Control-Allow-Origin" := "*" ]};
               result_body :=
                 json_dumps P
                   (PDict [("success", PBool false);
                           ("error", PStr "Internal server error");
                           ("message", PStr (str_exn e))]) |})
  /\ (exists r, (lambda_handler P event w).1 = inr r).
Proof.
  split.
  - intros e w' Hb Hc Hj.
    destruct (lambda_handler_catches _ _ _ _ Hb) as [-> _].
    destruct e; try discriminate; reflexivity.
  - destruct (lambda_body P event w) as [[e|r] w'] eqn:Hb.
    + destruct (lambda_handler_catches _ _ _ _ Hb) as [-> _]. eauto.
    + rewrite (lambda_handler_returns _ _ _ _ Hb). eauto.
Qed.

(** ** Request translation and defaults *)



(** ** Headers *)

(** C8, as amended: on every path the result carries
    [Content-Type: application/json] and [Access-Control-Allow-Origin: *].
    The success result carries two more headers,
    [Access-Control-Allow-Headers] and [Access-Control-Allow-Methods];
    the result of every [except] clause carries exactly the first two. *)
Theorem headers_by_path event w :
  exists r,
    (lambda_handler P event w).1 = inr r /\
    headers r !! "Content-Type" = Some "application/json" /\
    headers r !! "Access-Control-Allow-Origin" = Some "*" /\
    ((statusCode r = 200 /\
      headers r =
        {[ "Content-Type" := "application/json";
           "Access-Control-Allow-Origin" := "*";
           "Access-Control-Allow-Headers" := "Content-Type";
           "Access-Control-Allow-Methods" := "OPTIONS,POST,GET" ]})
     \/ (statusCode r <> 200 /\
         headers r =
           {[ "Content-Type" := "application/json";
              "Access-Control-Allow-Origin" := "*" ]})).
Proof.
  destruct (lambda_handler_cases event w)
    as (r & Hr & [(d & g & _ & ->)|(e & ->)]);
    eexists; (split; [exact Hr|]).
  - repeat split; try reflexivity. left. split; reflexivity.
  - rewrite failure_of_headers. repeat split; try reflexivity.
    right. split; [|reflexivity].
    destruct (failure_of_status e) as [H|H]; rewrite H; discriminate.
Qed.

End Runs.

(** ** The theorems at work on the test doubles *)

Definition llama70 : gmap string string :=
  {[ "MODEL_ID" := "meta.llama3-70b-instruct-v1:0" ]}.

Definition say_X : pyval :=
  PDict [("prompt", PStr "Say X"); ("max_tokens", PInt 16)].


Lemma generation_is_returned_witness :
  exists d,
    decodes_to (mock llama70 (answers generation_X)) say_X d /\
    (lambda_handler (mock llama70 (answers generation_X)) say_X fresh).1 =
      inr (success_result (mock llama70 (answers generation_X)) d (PStr "X")).
Proof.
  apply (generation_is_returned (mock llama70 (answers generation_X)) say_X
           fresh
           (provider_request (mock llama70 (answers generation_X))
              [("prompt", PStr "Say X"); ("max_tokens", PInt 16)])
           generation_X [("generation", PStr "X")] (PStr "X"));
    reflexivity.
Defined.

Lemma missing_generation_is_empty_witness :
  exists d,
    decodes_to (mock ∅ (answers "{}")) (PStr "{}") d /\
    (lambda_handler (mock ∅ (answers "{}")) (PStr "{}") fresh).1 =
      inr (success_result (mock ∅ (answers "{}")) d (PStr EmptyString)).
Proof.
  apply (missing_generation_is_empty (mock ∅ (answers "{}")) (PStr "{}") fresh
           (provider_request (mock ∅ (answers "{}")) []) "{}" []);
    reflexivity.
Defined.

Lemma client_error_is_400_witness :
  (lambda_handler (mock ∅ throttled) say_X fresh).1 =
    inr (failure_result (mock ∅ throttled) 400
           "AWS Error: ThrottlingException" "Too many requests").
Proof.
  apply (client_error_is_400 (mock ∅ throttled) say_X fresh
           (provider_request (mock ∅ throttled)
              [("prompt", PStr "Say X"); ("max_tokens", PInt 16)])
           "ThrottlingException" "Too many requests"
           ("An error occurred (ThrottlingException) when calling the "
            +:+ "InvokeModel operation: Too many requests"));
    reflexivity.
Defined.



Lemma unstructured_event_is_500_witness :
  ((lambda_handler (mock ∅ (answers "{}")) (PInt 5) fresh).1 =
     inr (failure_result (mock ∅ (answers "{}")) 500 "Internal server error"
            "'int' object has no attribute 'get'")
   /\ calls (lambda_handler (mock ∅ (answers "{}")) (PInt 5) fresh).2 = [])
  /\ ((lambda_handler (mock ∅ (answers "{}")) (PList [PInt 1]) fresh).1 =
        inr (failure_result (mock ∅ (answers "{}")) 500 "Internal server error"
               "'list' object has no attribute 'get'")
      /\ calls (lambda_handler (mock ∅ (answers "{}")) (PList [PInt 1]) fresh).2
         = []).
Proof.
  split.
  - apply (unstructured_event_is_500 (mock ∅ (answers "{}")) (PInt 5) fresh);
      reflexivity.
  - apply (unstructured_event_is_500 (mock ∅ (answers "{}")) (PList [PInt 1])
             fresh);
      reflexivity.
Defined.

Lemma other_failures_are_500_witness :
  lambda_body (mock ∅ unreachable) say_X fresh =
    (inl (Exception "Could not connect to the endpoint URL"),
     world_after_request (mock ∅ unreachable)
       [("prompt", PStr "Say X"); ("max_tokens", PInt 16)] fresh)
  /\ (lambda_handler (mock ∅ unreachable) say_X fresh).1 =
       inr (failure_result (mock ∅ unreachable) 500 "Internal server error"
              "Could not connect to the endpoint URL").
Proof.
  split; [reflexivity|].
  apply (proj1 (other_failures_are_500 (mock ∅ unreachable) say_X fresh)
           (Exception "Could not connect to the endpoint URL")
           (world_after_request (mock ∅ unreachable)
              [("prompt", PStr "Say X"); ("max_tokens", PInt 16)] fresh));
    reflexivity.
Defined.



(** C8, as the specification states it, fails: the success path and the
    catch-all path do not attach the same headers.  The empty event
    succeeds with four headers; the event [0] fails with two. *)
Lemma headers_differ_counterexample :
  exists r_ok r_err,
    (lambda_handler (mock ∅ (answers "{}")) (PDict []) fresh).1 = inr r_ok /\
    (lambda_handler (mock ∅ (answers "{}")) (PInt 0) fresh).1 = inr r_err /\
    statusCode r_ok = 200 /\
    statusCode r_err = 500 /\
    headers r_ok !! "Access-Control-Allow-Methods" = Some "OPTIONS,POST,GET" /\
    headers r_err !! "Access-Control-Allow-Methods" = None /\
    headers r_ok <> headers r_err.
Proof.
  exists (success_result (mock ∅ (answers "{}")) [] (PStr EmptyString)).
  exists (failure_result (mock ∅ (answers "{}")) 500 "Internal server error"
            "'int' object has no attribute 'get'").
  repeat split; try reflexivity.
  intros Heq.
  apply (f_equal (fun h : gmap string string =>
                    h !! "Access-Control-Allow-Methods")) in Heq.
  discriminate Heq.
Qed.

(** ** The handler run on the specification's test inputs *)

Example run_throttled :
  (lambda_handler (mock ∅ throttled) (PDict []) fresh).1 =
    inr {| statusCode := 400;
           headers := failure_headers;
           result_body :=
             "{" +:+ quoted "success" +:+ ": false, "
                 +:+ quoted "error" +:+ ": "
                 +:+ quoted "AWS Error: ThrottlingException" +:+ ", "
                 +:+ quoted "message" +:+ ": "
                 +:+ quoted "Too many requests" +:+ "}" |}.
Proof. reflexivity. Qed.

Example run_temperature_omitted :
  lambda_handler (mock ∅ (answers generation_X))
    (PDict [("prompt", PStr "Say X"); ("max_tokens", PInt 16);
            ("top_p", PFloat 0.5)])
    fresh =
    (inr {| statusCode := 200;
            headers := success_headers;
            result_body :=
              mock_json_dumps
                (PDict [("success", PBool true);
                        ("generated_text", PStr "X");
                        ("model_id", PStr "meta.llama3-8b-instruct-v1:0");
                        ("input_prompt", PStr "Say X");
                        ("parameters",
                         PDict [("max_tokens", PInt 16);
                                ("temperature", PFloat 0.7);
                                ("top_p", PFloat 0.5)])]) |},
     {| calls :=
          [ {| modelId := "meta.llama3-8b-instruct-v1:0";
               body :=
                 mock_json_dumps
                   (PDict [("prompt", PStr "Say X");
                           ("max_gen_len", PInt 16);
                           ("temperature", PFloat 0.7);
                           ("top_p", PFloat 0.5)]);
               contentType := "application/json";
               accept := "application/json" |} ];
        records :=
          [(INFO, "Processing request with prompt: Say X...");
           (INFO, "Successfully generated response")] |}).
Proof. reflexivity. Qed.

Example run_numeric_prompt :
  lambda_handler (mock ∅ (answers generation_X)) (PDict [("prompt", PInt 5)])
    fresh =
    (inr (failure_result (mock ∅ (answers generation_X)) 500
            "Internal server error" "'int' object is not subscriptable"),
     {| calls := [];
        records :=
          [(ERROR, "Unexpected error: 'int' object is not subscriptable")] |}).
Proof. reflexivity. Qed.

(** ** More of the handler's behaviour *)

Section Coverage.

Variable P : platform.






(** *** When the provider is called, and when the handler succeeds *)



(** *** Inputs and answers of the wrong shape *)

(** X3: a string event is decoded once.  When it decodes to something that
    is not a dictionary (a list, a number, [null], or a string holding
    JSON again) the handler returns status 500 through the catch-all
    clause, with the missing-attribute text for the decoded value's type,
    and does not call the provider. *)
Theorem decoded_non_dict_is_500 s v w :
  json_loads P s = inr v ->
  is_dict v = false ->
  (lambda_handler P (PStr s) w).1 =
    inr {| statusCode := 500;
           headers := {[ "Content-Type" := "application/json";
                         "Access-Control-Allow-Origin" := "*" ]};
           result_body :=
             json_dumps P
               (PDict [("success", PBool false);
                       ("error", PStr "Internal server error");
                       ("message",
                        PStr ("'" +:+ type_name v
                              +:+ "' object has no attribute 'get'"))]) |}
  /\ calls (lambda_handler P (PStr s) w).2 = calls w.
Proof.
  intros Hs Hv.
  apply (lambda_handler_catches _ _ _ _ _
           (lambda_body_decoded_no_get P _ _ w Hs Hv)).
Qed.

(** X4: the prompt is sliced for the log line before anything is sent.
    When the effective prompt is neither a string nor a list, the handler
    returns status 500 with [Internal server error] and the provider is
    not called; for a prompt that is not a dictionary either, the message
    is the interpreter's not-subscriptable text for the prompt's type. *)
Theorem unsliceable_prompt_is_500 event d w :
  decodes_to P event d ->
  sliceable (dict_get d "prompt" (PStr "Hello, how are you?")) = false ->
  exists message,
    (lambda_handler P event w).1 =
      inr {| statusCode := 500;
             headers := {[ "Content-Type" := "application/json";
                           "Access-Control-Allow-Origin" := "*" ]};
             result_body :=
               json_dumps P
                 (PDict [("success", PBool false);
                         ("error", PStr "Internal server error");
                         ("message", PStr message)]) |}
    /\ (is_dict (dict_get d "prompt" (PStr "Hello, how are you?")) = false ->
        message =
          "'" +:+ type_name (dict_get d "prompt" (PStr "Hello, how are you?"))
          +:+ "' object is not subscriptable")
    /\ calls (lambda_handler P event w).2 = calls w.
Proof.
  intros Hd.
  assert (Hb : forall e,
             lambda_body P (PDict d) w = (inl e, w) ->
             is_client_error e = false -> is_json_decode_error e = false ->
             (lambda_handler P event w).1 =
               inr (failure_result P 500 "Internal server error" (str_exn e))
             /\ calls (lambda_handler P event w).2 = calls w).
  { intros e Hb Hc Hj. rewrite <- (lambda_body_decoded _ _ _ w Hd) in Hb.
    destruct (lambda_handler_catches _ _ _ _ _ Hb) as [-> ->].
    split; [|reflexivity]. destruct e; try discriminate; reflexivity. }
  revert Hb. unfold lambda_body, mbind, M_bind, bind. cbn [py_get ret].
  generalize (dict_get d "prompt" (PStr "Hello, how are you?")).
  intros prompt Hb Hs.
  destruct prompt; try discriminate Hs; cbn [py_slice_to raise] in Hb;
    (eexists; destruct (Hb _ eq_refl eq_refl eq_refl) as [Hr Hc];
     split; [exact Hr|split; [|exact Hc]]);
    first [reflexivity | discriminate].
Qed.

(** X5: when the provider's answer is valid JSON but not an object, the
    handler returns status 500 with [Internal server error] and the
    missing-attribute text for the answer's type. *)
Theorem non_object_answer_is_500 event w req raw v :
  invoked P event w req ->
  invoke_model P req = inr raw ->
  json_loads P raw = inr v ->
  is_dict v = false ->
  (lambda_handler P event w).1 =
    inr {| statusCode := 500;
           headers := {[ "Content-Type" := "application/json";
                         "Access-Control-Allow-Origin" := "*" ]};
           result_body :=
             json_dumps P
               (PDict [("success", PBool false);
                       ("error", PStr "Internal server error");
                       ("message",
                        PStr ("'" +:+ type_name v
                              +:+ "' object has no attribute 'get'"))]) |}.
Proof.
  intros Hinv Hraw Hv Hdict.
  destruct (invoked_inv _ _ _ _ Hinv) as (d & _ & _ & -> & Hb).
  unfold after_request in Hb. rewrite Hraw, Hv in Hb.
  destruct v; try discriminate Hdict;
    apply (lambda_handler_catches _ _ _ _ _ Hb).
Qed.

(** *** What the result depends on *)

(** X6: a string event that decodes to a value other than a string is
    handled exactly as that value passed directly: same result, same
    provider call, same log records. *)
Theorem textual_event_same_as_structured s v w :
  json_loads P s = inr v ->
  is_str v = false ->
  lambda_handler P (PStr s) w = lambda_handler P v w.
Proof.
  intros Hs Hv.
  assert (Hb : lambda_body P (PStr s) w = lambda_body P v w).
  { unfold lambda_body, mbind, M_bind, bind, py_json_loads. rewrite Hs.
    destruct v; try discriminate Hv; reflexivity. }
  unfold lambda_handler. rewrite Hb. reflexivity.
Qed.

(** X7: the handler reads four keys of the event and nothing else: two
    dictionaries that agree on [prompt], [max_tokens], [temperature] and
    [top_p] give the same result, the same provider call and the same log
    records. *)
Theorem other_fields_are_ignored d d' w :
  dict_lookup d "prompt" = dict_lookup d' "prompt" ->
  dict_lookup d "max_tokens" = dict_lookup d' "max_tokens" ->
  dict_lookup d "temperature" = dict_lookup d' "temperature" ->
  dict_lookup d "top_p" = dict_lookup d' "top_p" ->
  lambda_handler P (PDict d) w = lambda_handler P (PDict d') w.
Proof.
  intros Hp Hm Ht Htp.
  assert (Hb : lambda_body P (PDict d) w = lambda_body P (PDict d') w).
  { unfold lambda_body, mbind, M_bind, bind. cbn [py_get ret].
    unfold dict_get. rewrite Hp, Hm, Ht, Htp. reflexivity. }
  unfold lambda_handler. rewrite Hb. reflexivity.
Qed.


(** *** Log records *)


Lemma failure_of_not_200 e : statusCode (failure_of P e) <> 200.
Proof. destruct (failure_of_status P e) as [H|H]; rewrite H; discriminate. Qed.




(** *** Status and envelope together *)

(** X11: the handler returns one of three statuses, and the status fixes
    the shape of the envelope: 200 comes with the success envelope, 400
    with [error] either [AWS Error: ] and a code or [Invalid JSON format],
    and 500 with [error] [Internal server error]. *)
Theorem envelope_matches_status event w :
  exists r,
    (lambda_handler P event w).1 = inr r /\
    ((statusCode r = 200 /\
      exists d generated_text,
        decodes_to P event d /\ r = success_result P d generated_text)
     \/ (statusCode r = 400 /\
         exists message,
           (exists code,
               result_body r =
                 json_dumps P
                   (PDict [("success", PBool false);
                           ("error", PStr ("AWS Error: " +:+ code));
                           ("message", PStr message)]))
           \/ result_body r =
                json_dumps P
                  (PDict [("success", PBool false);
                          ("error", PStr "Invalid JSON format");
                          ("message", PStr message)]))
     \/ (statusCode r = 500 /\
         exists message,
           result_body r =
             json_dumps P
               (PDict [("success", PBool false);
                       ("error", PStr "Internal server error");
                       ("message", PStr message)]))).
Proof.
  destruct (lambda_handler_cases P event w)
    as (r & Hr & [(d & g & Hd & ->)|(e & ->)]);
    eexists; (split; [exact Hr|]).
  - left. split; [reflexivity|]. eauto.
  - destruct e; cbn [failure_of failure_result statusCode result_body];
      first [ right; left; split; [reflexivity|]; eexists; left; eexists;
              reflexivity
            | right; left; split; [reflexivity|]; eexists; right; reflexivity
            | right; right; split; [reflexivity|]; eexists; reflexivity ].
Qed.

(** *** The local test entry point *)

(** X12: [test_local] never raises.  It prints the handler's result for
    [test_event]; the handler sends the provider one request holding the
    event's own four values, none of them a default, and the printed
    status is 200 exactly when the provider answers with a JSON object. *)
Theorem test_local_runs dumps_indent2 w :
  exists r,
    test_local P dumps_indent2 w =
      (inr [dumps_indent2 r], (lambda_handler P test_event w).2)
    /\ (lambda_handler P test_event w).1 = inr r
    /\ invoked P test_event w
         {| modelId := default "meta.llama3-8b-instruct-v1:0"
                         (environ P !! "MODEL_ID");
            body :=
              json_dumps P
                (PDict
                   [("prompt",
                     PStr "Explain what AWS Bedrock is in simple terms.");
                    ("max_gen_len", PInt 200);
                    ("temperature", PFloat 0.7);
                    ("top_p", PFloat 0.9)]);
            contentType := "application/json";
            accept := "application/json" |}
    /\ (statusCode r = 200 <->
        exists raw answer,
          invoke_model P
            {| modelId := default "meta.llama3-8b-instruct-v1:0"
                            (environ P !! "MODEL_ID");
               body :=
                 json_dumps P
                   (PDict
                      [("prompt",
                        PStr "Explain what AWS Bedrock is in simple terms.");
                       ("max_gen_len", PInt 200);
                       ("temperature", PFloat 0.7);
                       ("top_p", PFloat 0.9)]);
               contentType := "application/json";
               accept := "application/json" |} = inr raw
          /\ json_loads P raw = inr (PDict answer)).
Proof.
  assert (Hrun : forall r w',
             lambda_handler P test_event w = (inr r, w') ->
             test_local P dumps_indent2 w =
               (inr [dumps_indent2 r], (lambda_handler P test_event w).2)
             /\ (lambda_handler P test_event w).1 = inr r).
  { intros r w' Hh. unfold test_local, mbind, M_bind, bind.
    rewrite Hh. split; reflexivity. }
  assert (Hfail : forall e w',
             lambda_body P test_event w = (inl e, w') ->
             lambda_handler P test_event w =
               (inr (failure_of P e), (lambda_handler P test_event w).2)).
  { intros e w' Hb. destruct (lambda_handler_catches _ _ _ _ _ Hb) as [He _].
    destruct (lambda_handler P test_event w) as [x w'']. cbn in He.
    rewrite He. reflexivity. }
  pose proof (lambda_body_sliceable P
                [("prompt", PStr "Explain what AWS Bedrock is in simple terms.");
                 ("max_tokens", PInt 200);
                 ("temperature", PFloat 0.7);
                 ("top_p", PFloat 0.9)] w eq_refl) as Hb.
  pose proof (invoked_intro P test_event _ w (decodes_structured P _) eq_refl)
    as Hinv.
  fold test_event in Hb. unfold after_request in Hb.
  change (provider_request P _) with
    {| modelId := default "meta.llama3-8b-instruct-v1:0"
                    (environ P !! "MODEL_ID");
       body :=
         json_dumps P
           (PDict
              [("prompt", PStr "Explain what AWS Bedrock is in simple terms.");
               ("max_gen_len", PInt 200);
               ("temperature", PFloat 0.7);
               ("top_p", PFloat 0.9)]);
       contentType := "application/json";
       accept := "application/json" |} in Hb, Hinv.
  destruct (invoke_model P _) as [e|raw];
    [|destruct (json_loads P raw) as [text|v] eqn:Hv; [|destruct v]].
  all: try (destruct (Hrun _ _ (Hfail _ _ Hb)) as [Ht Hr];
            eexists; split; [exact Ht|]; split; [exact Hr|];
            split; [exact Hinv|];
            split;
            [ intros H200; destruct (failure_of_not_200 _ H200)
            | intros (raw' & answer & Hraw & Hanswer); try discriminate Hraw;
              injection Hraw as <-; rewrite Hv in Hanswer;
              discriminate Hanswer ]).
  destruct (Hrun _ _ (lambda_handler_returns _ _ _ _ _ Hb)) as [Ht Hr].
  eexists. split; [exact Ht|]. split; [exact Hr|]. split; [exact Hinv|].
  split; [eauto|reflexivity].
Qed.

End Coverage.

(** ** These theorems at work on the test doubles *)



Lemma decoded_non_dict_is_500_witness :
  (lambda_handler (mock ∅ (answers "{}")) (PStr "[]") fresh).1 =
    inr (failure_result (mock ∅ (answers "{}")) 500 "Internal server error"
           "'list' object has no attribute 'get'")
  /\ calls (lambda_handler (mock ∅ (answers "{}")) (PStr "[]") fresh).2 = [].
Proof.
  apply (decoded_non_dict_is_500 (mock ∅ (answers "{}")) "[]" (PList [])
           fresh);
    reflexivity.
Defined.

Lemma unsliceable_prompt_is_500_witness :
  exists message,
    (lambda_handler (mock ∅ (answers "{}")) (PDict [("prompt", PInt 5)])
       fresh).1 =
      inr (failure_result (mock ∅ (answers "{}")) 500 "Internal server error"
             message)
    /\ (is_dict (PInt 5) = false ->
        message = "'int' object is not subscriptable")
    /\ calls (lambda_handler (mock ∅ (answers "{}"))
                (PDict [("prompt", PInt 5)]) fresh).2 = [].
Proof.
  exact (unsliceable_prompt_is_500 (mock ∅ (answers "{}"))
           (PDict [("prompt", PInt 5)]) [("prompt", PInt 5)] fresh
           (decodes_structured _ _) eq_refl).
Defined.

Lemma non_object_answer_is_500_witness :
  (lambda_handler (mock ∅ (answers "[]")) say_X fresh).1 =
    inr (failure_result (mock ∅ (answers "[]")) 500 "Internal server error"
           "'list' object has no attribute 'get'").
Proof.
  apply (non_object_answer_is_500 (mock ∅ (answers "[]")) say_X fresh
           (provider_request (mock ∅ (answers "[]"))
              [("prompt", PStr "Say X"); ("max_tokens", PInt 16)])
           "[]" (PList []));
    reflexivity.
Defined.

Lemma textual_event_same_as_structured_witness :
  lambda_handler (mock ∅ (answers generation_X)) (PStr "{}") fresh =
  lambda_handler (mock ∅ (answers generation_X)) (PDict []) fresh.
Proof.
  apply (textual_event_same_as_structured (mock ∅ (answers generation_X))
           "{}" (PDict []) fresh);
    reflexivity.
Defined.

Lemma other_fields_are_ignored_witness :
  lambda_handler (mock ∅ (answers generation_X))
    (PDict [("user", PStr "ada"); ("prompt", PStr "Say X")]) fresh =
  lambda_handler (mock ∅ (answers generation_X))
    (PDict [("prompt", PStr "Say X")]) fresh.
Proof.
  apply (other_fields_are_ignored (mock ∅ (answers generation_X))
           [("user", PStr "ada"); ("prompt", PStr "Say X")]
           [("prompt", PStr "Say X")] fresh);
    reflexivity.
Defined.


